(** * Cost Optimization Hub exporter ([backend/routes/coh.py])

    A shallow embedding of the export script: the environment reader
    [get_env_str], the output path construction, the row mapping and the
    page loop that streams rows into the CSV file, followed by the
    properties of the written file. *)

From Stdlib Require Import ZArith Ascii String List Lia.
From stdpp Require Import base option list gmap strings pretty.

Local Open Scope Z_scope.
Set Warnings "-register-all".

(** ** Python values *)

(** The values that flow through the script.  [PObj text] stands for any
    other object (a float, a datetime, a dict), identified by the text
    that [str()] gives it. *)
Inductive pyval : Type :=
  | PNone
  | PBool (b : bool)
  | PInt (z : Z)
  | PStr (s : string)
  | PList (xs : list pyval)
  | PTuple (xs : list pyval)
  | PObj (text : string).

(** Exceptions that can leave the script. [SdkError] is whatever the
    paginated SDK call raises (authentication, network, validation). *)
Inductive exn : Type :=
  | RuntimeError (msg : string)
  | SdkError (msg : string).

Inductive result (A : Type) : Type :=
  | Ok (a : A)
  | Raise (e : exn).
Arguments Ok {A} a.
Arguments Raise {A} e.

(** [sep.join(parts)] *)
Fixpoint str_join (sep : string) (parts : list string) : string :=
  match parts with
  | [] => ""
  | [p] => p
  | p :: rest => p +:+ sep +:+ str_join sep rest
  end.

Definition is_none (v : pyval) : bool :=
  match v with PNone => true | _ => false end.

(** [isinstance(val, (list, tuple))] *)
Definition isinstance_list_tuple (v : pyval) : bool :=
  match v with PList _ | PTuple _ => true | _ => false end.

(** The elements a list or a tuple iterates over. *)
Definition py_iter (v : pyval) : list pyval :=
  match v with PList xs | PTuple xs => xs | _ => [] end.

Section Str.

(** [repr()] of a value nested in a container is left to the Python
    runtime: it is an argument of the model. *)
Variable py_repr : pyval -> string.

(** [str(v)] *)
Definition py_str (v : pyval) : string :=
  match v with
  | PNone => "None"
  | PBool true => "True"
  | PBool false => "False"
  | PInt z => pretty z
  | PStr s => s
  | PList xs => "[" +:+ str_join ", " (map py_repr xs) +:+ "]"
  | PTuple [x] => "(" +:+ py_repr x +:+ ",)"
  | PTuple xs => "(" +:+ str_join ", " (map py_repr xs) +:+ ")"
  | PObj text => text
  end.

(** ** [get_env_str] *)

(** [os.environ.get(name, default)]: the environment maps names to
    strings. *)
Definition os_environ_get (environ : gmap string string) (name : string)
    (default : pyval) : pyval :=
  match environ !! name with
  | Some s => PStr s
  | None => default
  end.

Definition get_env_str (environ : gmap string string) (name : string)
    (default : pyval) (required : bool) : result pyval :=
  let val := os_environ_get environ name default in
  let val :=
    if isinstance_list_tuple val
    then PStr (str_join "," (map py_str (py_iter val)))
    else val in
  if is_none val && required
  then Raise (RuntimeError ("Missing required environment variable: " +:+ name))
  else Ok (if negb (is_none val) then PStr (py_str val) else val).

End Str.

(** ** Output location *)

(** The fields of [datetime.now()] that the script reads. *)
Record datetime : Type := { year : Z; month : Z; day : Z }.

(** [s.zfill(width)]: zeros on the left, never a truncation. *)
Definition zfill (width : nat) (s : string) : string :=
  String.string_of_list_ascii
    (replicate (width - String.length s)%nat "0"%char) +:+ s.

(** [now.strftime('%Y%m')]: the year on four digits, the month on two
    (a year below 1000 is padded here; platforms differ on it). *)
Definition strftime_Ym (now : datetime) : string :=
  zfill 4 (pretty (year now)) +:+ zfill 2 (pretty (month now)).

Definition startswith_sep (b : string) : bool :=
  match b with
  | String "/" _ => true
  | _ => false
  end.

Fixpoint endswith_sep (path : string) : bool :=
  match path with
  | "" => false
  | String c "" => bool_decide (c = "/"%char)
  | String _ rest => endswith_sep rest
  end.

(** One iteration of the loop of [posixpath.join]. *)
Definition join_step (path b : string) : string :=
  if startswith_sep b then b
  else if bool_decide (path = "") || endswith_sep path then path +:+ b
  else path +:+ "/" +:+ b.

(** [os.path.join(a, *p)] *)
Definition os_path_join (a : string) (p : list string) : string :=
  fold_left join_step p a.

Definition client_name : string := "Titans-Sandbox".
Definition local_root : string := "/Users/adarsh/Carbon-test/".

Definition folder_path (local_root client_name : string) (now : datetime)
    : string :=
  os_path_join local_root [client_name; strftime_Ym now].

Definition csv_filename (local_root client_name : string) (now : datetime)
    : string :=
  os_path_join (folder_path local_root client_name now)
    [client_name +:+ "_recommendations.csv"].

(** ** Rows *)

(** A recommendation record is a dict with string keys. *)
Abbreviation item := (gmap string pyval).

(** [d.get(key)] *)
Definition dict_get (d : item) (key : string) : pyval :=
  default PNone (d !! key).

Definition header : list string :=
  [ "Account ID"; "Action Type"; "Currency Code"; "Current Resource Summary";
    "Current Resource Type"; "Estimated Monthly Cost"; "Estimated Monthly Savings";
    "Estimated Savings Percentage"; "Implementation Effort"; "Last Refresh Timestamp";
    "Recommendation ID"; "Recommendation Lookback Period In Days";
    "Recommended Resource Summary"; "Recommended Resource Type"; "Region";
    "Resource ARN"; "Resource ID"; "Restart Needed"; "Rollback Possible";
    "Source"; "Tags" ].

Definition row (it : item) : list pyval :=
  [ dict_get it "accountId"; dict_get it "actionType"; dict_get it "currencyCode";
    dict_get it "currentResourceSummary"; dict_get it "currentResourceType";
    dict_get it "estimatedMonthlyCost"; dict_get it "estimatedMonthlySavings";
    dict_get it "estimatedSavingsPercentage"; dict_get it "implementationEffort";
    dict_get it "lastRefreshTimestamp"; dict_get it "recommendationId";
    dict_get it "recommendationLookbackPeriodInDays";
    dict_get it "recommendedResourceSummary"; dict_get it "recommendedResourceType";
    dict_get it "region"; dict_get it "resourceArn"; dict_get it "resourceId";
    dict_get it "restartNeeded"; dict_get it "rollbackPossible";
    dict_get it "source"; dict_get it "tags" ].

(** The key read for each column of [row], in column order. *)
Definition row_keys : list string :=
  [ "accountId"; "actionType"; "currencyCode"; "currentResourceSummary";
    "currentResourceType"; "estimatedMonthlyCost"; "estimatedMonthlySavings";
    "estimatedSavingsPercentage"; "implementationEffort"; "lastRefreshTimestamp";
    "recommendationId"; "recommendationLookbackPeriodInDays";
    "recommendedResourceSummary"; "recommendedResourceType"; "region";
    "resourceArn"; "resourceId"; "restartNeeded"; "rollbackPossible";
    "source"; "tags" ].

(** ** Pages of the paginated listing *)

Record response_metadata : Type := { HTTPStatusCode : option Z }.

Record page : Type := {
  ResponseMetadata : option response_metadata;
  items : option (list item)
}.

(** What one request of the page iterator gives: a page, or an exception
    out of the SDK call. *)
Inductive response : Type :=
  | Page (p : page)
  | Fails (e : exn).

(** The filter of the listing request. *)
Record recommendation_filter : Type := {
  actionTypes : list string;
  implementationEfforts : list string;
  resourceTypes : list string
}.

Definition recommendations_filter : recommendation_filter :=
  {| actionTypes :=
       [ "Rightsize"; "Stop"; "Upgrade"; "PurchaseSavingsPlans";
         "PurchaseReservedInstances"; "MigrateToGraviton" ];
     implementationEfforts := [ "VeryLow"; "Low"; "Medium"; "High"; "VeryHigh" ];
     resourceTypes :=
       [ "Ec2Instance"; "LambdaFunction"; "EbsVolume"; "EcsService";
         "Ec2AutoScalingGroup"; "Ec2InstanceSavingsPlans"; "ComputeSavingsPlans";
         "SageMakerSavingsPlans"; "Ec2ReservedInstances"; "RdsReservedInstances";
         "OpenSearchReservedInstances"; "RedshiftReservedInstances";
         "ElastiCacheReservedInstances" ] |}.

(** The remote listing: what the successive requests of
    [paginate(filter=..., includeAllRecommendations=...)] give. *)
Definition paginator : Type := recommendation_filter -> bool -> list response.

(** [page.get('ResponseMetadata', {}).get('HTTPStatusCode')] *)
Definition page_status (p : page) : option Z :=
  match ResponseMetadata p with
  | Some md => HTTPStatusCode md
  | None => None
  end.

(** [... != 200] *)
Definition status_not_200 (p : page) : bool :=
  negb (bool_decide (page_status p = Some 200)).

(** [page.get('items', [])] *)
Definition page_items (p : page) : list item :=
  default [] (items p).

(** ** The CSV writer (excel dialect, minimal quoting) *)

Definition dquote : ascii := "034"%char.
Definition CR : ascii := "013"%char.
Definition LF : ascii := "010"%char.
Definition lineterminator : string := String CR (String LF "").

Fixpoint needs_quote (s : string) : bool :=
  match s with
  | "" => false
  | String c rest =>
      bool_decide (c = ","%char) || bool_decide (c = dquote)
      || bool_decide (c = CR) || bool_decide (c = LF) || needs_quote rest
  end.

Fixpoint double_quotes (s : string) : string :=
  match s with
  | "" => ""
  | String c rest =>
      if bool_decide (c = dquote)
      then String dquote (String dquote (double_quotes rest))
      else String c (double_quotes rest)
  end.

Definition quote_field (s : string) : string :=
  if needs_quote s
  then String dquote (double_quotes s +:+ String dquote "")
  else s.

Section Csv.

Variable py_repr : pyval -> string.

(** The text of a cell: nothing for [None], the string itself for a
    string, [str()] of anything else. *)
Definition cell_text (v : pyval) : string :=
  match v with
  | PNone => ""
  | _ => py_str py_repr v
  end.

(** The line [writerow] emits for a row; a row made of one empty cell
    is written as a pair of quotes. *)
Definition csv_record (cells : list pyval) : string :=
  let body := str_join "," (map (fun v => quote_field (cell_text v)) cells) in
  (if bool_decide (body = "") && negb (bool_decide (cells = []))
   then String dquote (String dquote "")
   else body) +:+ lineterminator.

End Csv.

(** ** The world the script acts on *)

(** What the script does to the outside, in the order it does it. *)
Inductive event : Type :=
  | EvPrint (line : string)
  | EvMakedirs (path : string)
  | EvOpen (path : string)
  | EvWriterow (path : string) (cells : list pyval)
  | EvRequest
  | EvClose (path : string).

(** The files of the local disk with their contents, and the events so
    far. *)
Record world : Type := {
  files : gmap string string;
  trace : list event
}.

Definition log (e : event) (w : world) : world :=
  {| files := files w; trace := trace w ++ [e] |}.

(** A computation reads and changes the world, and returns or raises. *)
Definition M (A : Type) : Type := world -> result A * world.

Definition ret {A} (a : A) : M A := fun w => (Ok a, w).

Definition bind {A B} (m : M A) (k : A -> M B) : M B :=
  fun w =>
    match m w with
    | (Ok a, w') => k a w'
    | (Raise e, w') => (Raise e, w')
    end.

Definition raise {A} (e : exn) : M A := fun w => (Raise e, w).

Notation "m1 ;; m2" := (bind m1 (fun _ => m2))
  (at level 100, m2 at level 200, right associativity).

(** [print(line)] *)
Definition print (line : string) : M unit :=
  fun w => (Ok tt, log (EvPrint line) w).

(** [os.makedirs(path, exist_ok=True)]. The disk is taken to grant the
    directory, and the file below: a run that the file system refuses
    stops before it touches the file. *)
Definition makedirs (path : string) : M unit :=
  fun w => (Ok tt, log (EvMakedirs path) w).

(** [with open(path, 'w', newline='') as f: body]: the file is truncated,
    and closed on the way out, whether [body] returns or raises; what was
    written is then in the file. *)
Definition with_open_w {A} (path : string) (body : string -> M A) : M A :=
  fun w =>
    let opened :=
      {| files := <[path := ""]> (files w);
         trace := trace w ++ [EvOpen path] |} in
    let '(r, w') := body path opened in
    (r, log (EvClose path) w').

(** One request of the page iterator. *)
Definition request : M unit :=
  fun w => (Ok tt, log EvRequest w).

Fixpoint for_each {A} (xs : list A) (body : A -> M unit) : M unit :=
  match xs with
  | [] => ret tt
  | x :: rest => body x ;; for_each rest body
  end.

(** [for page in page_iterator: body]: each turn of the loop asks the
    iterator for the next page, which costs one request and may raise. *)
Fixpoint for_page (upstream : list response) (body : page -> M unit)
    : M unit :=
  match upstream with
  | [] => ret tt
  | Page p :: rest => request ;; body p ;; for_page rest body
  | Fails e :: _ => request ;; raise e
  end.

Section Exporter.

Variable py_repr : pyval -> string.

(** [csv_writer.writerow(cells)] on the file opened at [path] *)
Definition writerow (path : string) (cells : list pyval) : M unit :=
  fun w =>
    (Ok tt,
     {| files := alter (fun c => c +:+ csv_record py_repr cells) path (files w);
        trace := trace w ++ [EvWriterow path cells] |}).

(** The body of the loop over the pages: a page whose status is not
    200 is passed over, the items of the others are written. *)
Definition page_body (path : string) (pg : page) : M unit :=
  if status_not_200 pg then ret tt
  else for_each (page_items pg) (fun it => writerow path (row it)).

(** The script, from the date folder to the final print, on the page
    iterator [upstream]. *)
Definition export (local_root client_name : string) (now : datetime)
    (upstream : list response) : M unit :=
  let folder_path := folder_path local_root client_name now in
  print ("DEBUG: folder_path = " +:+ folder_path) ;;
  makedirs folder_path ;;
  let csv_filename := csv_filename local_root client_name now in
  with_open_w csv_filename (fun csvfile =>
    writerow csvfile (map PStr header) ;;
    for_page upstream (page_body csvfile)) ;;
  print ("Results exported to local file: " +:+ csv_filename).

(** The script with its own configuration, filter and request. *)
Definition main (paginate : paginator) (now : datetime) : M unit :=
  let page_iterator := paginate recommendations_filter true in
  export local_root client_name now page_iterator.

End Exporter.

(** ** Views of a run *)

(** The lines printed on the console. *)
Definition printed (tr : list event) : list string :=
  omap (fun e => match e with EvPrint l => Some l | _ => None end) tr.

(** The rows handed to the CSV writer for [path]. *)
Definition rows_written (path : string) (tr : list event) : list (list pyval) :=
  omap (fun e =>
          match e with
          | EvWriterow p cells => if bool_decide (p = path) then Some cells else None
          | _ => None
          end) tr.

Definition is_request (e : event) : bool :=
  match e with EvRequest => true | _ => false end.

(** The pages the loop receives before the iterator raises, if it does. *)
Fixpoint received (upstream : list response) : list page :=
  match upstream with
  | Page p :: rest => p :: received rest
  | _ => []
  end.

(** The exception that ends the loop, if any. *)
Fixpoint failure (upstream : list response) : option exn :=
  match upstream with
  | [] => None
  | Page _ :: rest => failure rest
  | Fails e :: _ => Some e
  end.

(** The data rows a page contributes. *)
Definition page_rows (p : page) : list (list pyval) :=
  if status_not_200 p then [] else map row (page_items p).

Definition empty_world : world := {| files := ∅; trace := [] |}.

(** The data rows of a run, page after page. *)
Definition data_rows (upstream : list response) : list (list pyval) :=
  flat_map page_rows (received upstream).

(** The events of the page loop. *)
Fixpoint loop_events (path : string) (upstream : list response) : list event :=
  match upstream with
  | [] => []
  | Page p :: rest =>
      EvRequest :: map (EvWriterow path) (page_rows p) ++ loop_events path rest
  | Fails _ :: _ => [EvRequest]
  end.

(** How the loop ends. *)
Definition outcome (upstream : list response) : result unit :=
  match failure upstream with
  | None => Ok tt
  | Some e => Raise e
  end.

(** The events a run adds to the trace. *)
Definition run_events (local_root client_name : string) (now : datetime)
    (upstream : list response) : list event :=
  let csv := csv_filename local_root client_name now in
  [ EvPrint ("DEBUG: folder_path = " +:+ folder_path local_root client_name now);
    EvMakedirs (folder_path local_root client_name now);
    EvOpen csv;
    EvWriterow csv (map PStr header) ]
  ++ loop_events csv upstream
  ++ EvClose csv
     :: match failure upstream with
        | None => [EvPrint ("Results exported to local file: " +:+ csv)]
        | Some _ => []
        end.

(** The text of a file made of the given rows. *)
Definition csv_text (py_repr : pyval -> string) (rows : list (list pyval))
    : string :=
  fold_right (fun cells acc => csv_record py_repr cells +:+ acc) "" rows.

(** ** The path as the specification writes it *)

(** [{localRoot}/{clientName}/{YYYYMM}/{clientName}_recommendations.csv],
    read as the concatenation it shows. *)
Definition path_template (localRoot clientName yyyymm : string) : string :=
  localRoot +:+ "/" +:+ clientName +:+ "/" +:+ yyyymm +:+ "/"
    +:+ clientName +:+ "_recommendations.csv".

(** A path component followed by a separator, unless it is empty or
    already ends with one. *)
Definition with_sep (s : string) : string :=
  if bool_decide (s = "") || endswith_sep s then s else s +:+ "/".

(** The decimal digit of [z] of weight [10^k]. *)
Definition digit (z : Z) (k : nat) : ascii :=
  pretty_N_char ((Z.to_N z / 10 ^ N.of_nat k) mod 10)%N.

(** The six digits of a year and month. *)
Definition YYYYMM (now : datetime) : string :=
  String (digit (year now) 3) (String (digit (year now) 2)
    (String (digit (year now) 1) (String (digit (year now) 0)
      (String (digit (month now) 1) (String (digit (month now) 0) ""))))).

(** ** Measures of a trace *)


(** The events of the page loop on the file at [path]: a row written to
    that file, or a request. *)
Definition is_loop_event (path : string) (e : event) : bool :=
  match e with
  | EvWriterow p _ => bool_decide (p = path)
  | EvRequest => true
  | _ => false
  end.

(** [c.isdigit()] on an ASCII character. *)
Definition isdigit (c : ascii) : bool :=
  match Ascii.is_nat c with
  | Some _ => true
  | None => false
  end.

(** The items of the pages that are written: those of the pages with
    status 200, in order. *)
Definition kept_items (pages : list page) : list item :=
  flat_map (fun p => if status_not_200 p then [] else page_items p) pages.

(** ** Sample data *)

(** The sample values nest nothing in a container, so their [repr] is
    never asked for. *)
Definition sample_repr : pyval -> string := fun _ => "".

Definition july_2024 : datetime := {| year := 2024; month := 7; day := 15 |}.

Definition item_a : item :=
  {[ "accountId" := PStr "111122223333"; "actionType" := PStr "Stop";
     "estimatedMonthlySavings" := PObj "12.5"; "restartNeeded" := PBool false ]}.

Definition item_b : item :=
  {[ "accountId" := PStr "111122223333"; "region" := PStr "us-east-1";
     "recommendationLookbackPeriodInDays" := PInt 14 ]}.

Definition page_of (status : Z) (its : list item) : page :=
  {| ResponseMetadata := Some {| HTTPStatusCode := Some status |};
     items := Some its |}.

(** * Properties *)

(** ** Strings *)

Lemma append_cons (c : ascii) (s t : string) :
  String c s +:+ t = String c (s +:+ t).
Proof. reflexivity. Qed.

Lemma append_nil_l (s : string) : "" +:+ s = s.
Proof. reflexivity. Qed.

Lemma append_nil_r (s : string) : s +:+ "" = s.
Proof.
  induction s as [| c s IH]; [reflexivity |].
  rewrite append_cons, IH. reflexivity.
Qed.

Lemma append_assoc (s t u : string) : (s +:+ t) +:+ u = s +:+ t +:+ u.
Proof.
  induction s as [| c s IH]; [reflexivity |].
  rewrite !append_cons, IH. reflexivity.
Qed.

Lemma csv_text_app py_repr (r1 r2 : list (list pyval)) :
  csv_text py_repr (r1 ++ r2) = csv_text py_repr r1 +:+ csv_text py_repr r2.
Proof.
  induction r1 as [| cells r1 IH]; [reflexivity |].
  simpl. rewrite IH, append_assoc. reflexivity.
Qed.

(** ** The page loop *)

Section Run.

Variable py_repr : pyval -> string.

Lemma world_eq (w1 w2 : world) :
  files w1 = files w2 -> trace w1 = trace w2 -> w1 = w2.
Proof. destruct w1, w2; simpl; intros -> ->; reflexivity. Qed.

Lemma for_each_writerow (path : string) (its : list item) (w : world) :
  for_each its (fun it => writerow py_repr path (row it)) w =
    (Ok tt,
     {| files := alter (fun c => c +:+ csv_text py_repr (map row its))
                   path (files w);
        trace := trace w ++ map (EvWriterow path) (map row its) |}).
Proof.
  revert w. induction its as [| it its IH]; intros w.
  - simpl. unfold ret. f_equal. apply world_eq; simpl.
    + symmetry. apply alter_id. intros c _. apply append_nil_r.
    + symmetry. apply app_nil_r.
  - simpl. unfold bind at 1. unfold writerow at 1. rewrite IH. simpl.
    f_equal. apply world_eq; simpl.
    + rewrite alter_alter_eq. apply alter_ext. intros c _. simpl.
      apply append_assoc.
    + rewrite <- app_assoc. reflexivity.
Qed.

Lemma page_body_run (path : string) (pg : page) (w : world) :
  page_body py_repr path pg w =
    (Ok tt,
     {| files := alter (fun c => c +:+ csv_text py_repr (page_rows pg))
                   path (files w);
        trace := trace w ++ map (EvWriterow path) (page_rows pg) |}).
Proof.
  unfold page_body, page_rows. destruct (status_not_200 pg).
  - unfold ret. f_equal. apply world_eq; simpl.
    + symmetry. apply alter_id. intros c _. apply append_nil_r.
    + symmetry. apply app_nil_r.
  - apply for_each_writerow.
Qed.

Lemma for_page_run (path : string) (upstream : list response) (w : world) :
  for_page upstream (page_body py_repr path) w =
    (outcome upstream,
     {| files := alter (fun c => c +:+ csv_text py_repr (data_rows upstream))
                   path (files w);
        trace := trace w ++ loop_events path upstream |}).
Proof.
  revert w. induction upstream as [| [pg | e] rest IH]; intros w.
  - simpl. unfold ret, outcome. simpl. f_equal. apply world_eq; simpl.
    + symmetry. apply alter_id. intros c _. apply append_nil_r.
    + symmetry. apply app_nil_r.
  - simpl. unfold bind, request. rewrite page_body_run, IH.
    unfold outcome, data_rows. simpl. f_equal. apply world_eq; simpl.
    + rewrite alter_alter_eq. apply alter_ext. intros c _. simpl.
      rewrite csv_text_app. apply append_assoc.
    + rewrite <- !app_assoc. reflexivity.
  - simpl. unfold bind, request, raise, outcome, data_rows. simpl.
    f_equal. apply world_eq; simpl; [| reflexivity].
    symmetry. apply alter_id. intros c _. apply append_nil_r.
Qed.

(** What a whole run does to the world. *)
Lemma export_run (local_root client_name : string) (now : datetime)
    (upstream : list response) (w : world) :
  export py_repr local_root client_name now upstream w =
    (outcome upstream,
     {| files :=
          <[csv_filename local_root client_name now :=
              csv_text py_repr (map PStr header :: data_rows upstream)]>
            (files w);
        trace := trace w ++ run_events local_root client_name now upstream |}).
Proof.
  unfold export, bind, print, makedirs, with_open_w, writerow.
  cbv beta. rewrite for_page_run. unfold outcome, run_events.
  destruct (failure upstream) as [e |]; simpl.
  - f_equal. apply world_eq; simpl.
    + rewrite alter_alter_eq, alter_insert_eq. simpl.
      rewrite append_nil_l. reflexivity.
    + rewrite <- !app_assoc. reflexivity.
  - unfold print. f_equal. apply world_eq; simpl.
    + rewrite alter_alter_eq, alter_insert_eq. simpl.
      rewrite append_nil_l. reflexivity.
    + rewrite <- !app_assoc. reflexivity.
Qed.

End Run.

(** ** Views of the events of a run *)

Lemma printed_app (t1 t2 : list event) :
  printed (t1 ++ t2) = printed t1 ++ printed t2.
Proof. apply omap_app. Qed.

Lemma rows_written_app (path : string) (t1 t2 : list event) :
  rows_written path (t1 ++ t2) =
    rows_written path t1 ++ rows_written path t2.
Proof. apply omap_app. Qed.

Lemma printed_writerows (path : string) (rows : list (list pyval)) :
  printed (map (EvWriterow path) rows) = [].
Proof. induction rows as [| cells rows IH]; [reflexivity | exact IH]. Qed.

Lemma rows_written_writerows (path : string) (rows : list (list pyval)) :
  rows_written path (map (EvWriterow path) rows) = rows.
Proof.
  induction rows as [| cells rows IH]; [reflexivity |].
  cbn [map]. change (?e :: ?t) with ([e] ++ t) at 1.
  rewrite rows_written_app, IH. unfold rows_written. cbn [omap list_omap].
  rewrite bool_decide_eq_true_2 by reflexivity. reflexivity.
Qed.

Lemma printed_loop_events (path : string) (upstream : list response) :
  printed (loop_events path upstream) = [].
Proof.
  induction upstream as [| [pg | e] rest IH]; try reflexivity.
  cbn [loop_events]. change (EvRequest :: ?t) with ([EvRequest] ++ t).
  rewrite !printed_app, printed_writerows, IH. reflexivity.
Qed.

Lemma rows_written_loop_events (path : string) (upstream : list response) :
  rows_written path (loop_events path upstream) = data_rows upstream.
Proof.
  induction upstream as [| [pg | e] rest IH]; try reflexivity.
  cbn [loop_events]. change (EvRequest :: ?t) with ([EvRequest] ++ t).
  rewrite !rows_written_app, rows_written_writerows, IH. reflexivity.
Qed.

Lemma printed_run_events (local_root client_name : string) (now : datetime)
    (upstream : list response) :
  printed (run_events local_root client_name now upstream) =
    ("DEBUG: folder_path = " +:+ folder_path local_root client_name now)
    :: match failure upstream with
       | None => ["Results exported to local file: "
                    +:+ csv_filename local_root client_name now]
       | Some _ => []
       end.
Proof.
  unfold run_events. rewrite !printed_app, printed_loop_events.
  destruct (failure upstream); reflexivity.
Qed.

Lemma rows_written_run_events (local_root client_name : string)
    (now : datetime) (upstream : list response) :
  rows_written (csv_filename local_root client_name now)
    (run_events local_root client_name now upstream) =
    map PStr header :: data_rows upstream.
Proof.
  unfold run_events.
  set (csv := csv_filename local_root client_name now).
  rewrite !rows_written_app, rows_written_loop_events.
  unfold rows_written. cbn [omap list_omap].
  rewrite bool_decide_eq_true_2 by reflexivity.
  destruct (failure upstream); simpl; rewrite ?app_nil_r; reflexivity.
Qed.

Lemma received_pages (pages : list page) : received (map Page pages) = pages.
Proof. induction pages as [| p ps IH]; simpl; congruence. Qed.

Lemma failure_pages (pages : list page) : failure (map Page pages) = None.
Proof. induction pages as [| p ps IH]; simpl; congruence. Qed.

Lemma page_rows_ok (pages : list page) :
  Forall (fun p => status_not_200 p = false) pages ->
  flat_map page_rows pages = flat_map (fun p => map row (page_items p)) pages.
Proof.
  induction 1 as [| p ps Hp _ IH]; simpl; [reflexivity |].
  unfold page_rows at 1. rewrite Hp, IH. reflexivity.
Qed.

(** The line of the header in the file. *)
Lemma header_record (py_repr : pyval -> string) :
  csv_record py_repr (map PStr header) =
    "Account ID,Action Type,Currency Code,Current Resource Summary,Current Resource Type,Estimated Monthly Cost,Estimated Monthly Savings,Estimated Savings Percentage,Implementation Effort,Last Refresh Timestamp,Recommendation ID,Recommendation Lookback Period In Days,Recommended Resource Summary,Recommended Resource Type,Region,Resource ARN,Resource ID,Restart Needed,Rollback Possible,Source,Tags"
    +:+ lineterminator.
Proof. reflexivity. Qed.

(** ** What a run leaves behind *)

Section Outcome.

Variable py_repr : pyval -> string.
Variables local_root client_name : string.
Variable now : datetime.
Variable upstream : list response.
Variable w : world.

Let csv := csv_filename local_root client_name now.
Let run := export py_repr local_root client_name now upstream w.

Lemma export_result : fst run = outcome upstream.
Proof. subst run. rewrite export_run. reflexivity. Qed.

Lemma export_file :
  files (snd run) !! csv =
    Some (csv_record py_repr (map PStr header)
          +:+ csv_text py_repr (data_rows upstream)).
Proof.
  subst run csv. rewrite export_run. cbn [snd files].
  rewrite lookup_insert_eq. reflexivity.
Qed.

Lemma export_other_files (path : string) :
  path <> csv -> files (snd run) !! path = files w !! path.
Proof.
  intros Hne. subst run csv. rewrite export_run. cbn [snd files].
  rewrite lookup_insert_ne by congruence. reflexivity.
Qed.

Lemma export_rows_written :
  rows_written csv (trace (snd run)) =
    rows_written csv (trace w) ++ map PStr header :: data_rows upstream.
Proof.
  subst run csv. rewrite export_run. cbn [snd trace].
  rewrite rows_written_app, rows_written_run_events. reflexivity.
Qed.

Lemma export_printed :
  printed (trace (snd run)) =
    printed (trace w)
    ++ ("DEBUG: folder_path = " +:+ folder_path local_root client_name now)
       :: match failure upstream with
          | None => ["Results exported to local file: " +:+ csv]
          | Some _ => []
          end.
Proof.
  subst run csv. rewrite export_run. cbn [snd trace].
  rewrite printed_app, printed_run_events. reflexivity.
Qed.

End Outcome.

(** ** The claims on a run *)

(** C1, as the code has it: whatever the pages, the first row a run writes
    is the header, which has 21 columns (not 20), from [Account ID] and
    [Action Type] to [Source] and [Tags], and its line opens the file. *)
Theorem header_row_first (py_repr : pyval -> string)
    (local_root client_name : string) (now : datetime)
    (upstream : list response) (w : world) :
  let csv := csv_filename local_root client_name now in
  let w' := snd (export py_repr local_root client_name now upstream w) in
  rows_written csv (trace w') =
    rows_written csv (trace w) ++ map PStr header :: data_rows upstream
  /\ length (map PStr header) = 21%nat
  /\ header !! 0%nat = Some "Account ID"
  /\ header !! 1%nat = Some "Action Type"
  /\ header !! 19%nat = Some "Source"
  /\ header !! 20%nat = Some "Tags"
  /\ files w' !! csv =
       Some (("Account ID,Action Type,Currency Code,Current Resource Summary,Current Resource Type,Estimated Monthly Cost,Estimated Monthly Savings,Estimated Savings Percentage,Implementation Effort,Last Refresh Timestamp,Recommendation ID,Recommendation Lookback Period In Days,Recommended Resource Summary,Recommended Resource Type,Region,Resource ARN,Resource ID,Restart Needed,Rollback Possible,Source,Tags"
              +:+ lineterminator)
             +:+ csv_text py_repr (data_rows upstream)).
Proof.
  intros csv w'. subst csv w'.
  split; [apply export_rows_written |].
  do 5 (split; [reflexivity |]).
  rewrite export_file, header_record. reflexivity.
Qed.

(** C1, as the specification states it, fails: on a run without pages the
    first row written has a number of columns other than 20. *)
Lemma header_row_not_20_columns :
  let now := {| year := 2024; month := 7; day := 1 |} in
  exists cells rest,
    rows_written (csv_filename local_root client_name now)
      (trace (snd (main sample_repr (fun _ _ => []) now empty_world)))
      = cells :: rest
    /\ length cells <> 20%nat.
Proof.
  intros now. eexists _, _. split; [vm_compute; reflexivity |].
  simpl. lia.
Qed.

(** C7: when the listing gives no page, the file holds the header line and
    nothing else, and the header is the only row written. *)
Theorem no_pages_header_only (py_repr : pyval -> string)
    (local_root client_name : string) (now : datetime) (w : world) :
  let csv := csv_filename local_root client_name now in
  let run := export py_repr local_root client_name now [] w in
  fst run = Ok tt
  /\ files (snd run) !! csv = Some (csv_record py_repr (map PStr header))
  /\ rows_written csv (trace (snd run)) =
       rows_written csv (trace w) ++ [map PStr header].
Proof.
  intros csv run. subst csv run.
  split; [apply export_result | split].
  - rewrite export_file. cbn [data_rows received flat_map csv_text fold_right].
    rewrite append_nil_r. reflexivity.
  - apply export_rows_written.
Qed.

(** C10: in every run, also one that the SDK call later aborts, the header
    is written after the file is opened and before the first request for a
    page, and the file left behind begins with the header line. *)
Theorem header_written_before_requests (py_repr : pyval -> string)
    (local_root client_name : string) (now : datetime)
    (upstream : list response) (w : world) :
  let csv := csv_filename local_root client_name now in
  let w' := snd (export py_repr local_root client_name now upstream w) in
  exists before later tail,
    trace w' = trace w ++ before ++ EvWriterow csv (map PStr header) :: later
    /\ Forall (fun e => is_request e = false) before
    /\ In (EvOpen csv) before
    /\ files w' !! csv = Some (csv_record py_repr (map PStr header) +:+ tail).
Proof.
  intros csv w'. subst w'.
  exists [EvPrint ("DEBUG: folder_path = "
                     +:+ folder_path local_root client_name now);
          EvMakedirs (folder_path local_root client_name now);
          EvOpen csv].
  eexists _, (csv_text py_repr (data_rows upstream)).
  split; [| split; [| split]].
  - rewrite export_run. cbn [snd trace]. unfold run_events. reflexivity.
  - repeat constructor.
  - simpl. auto.
  - apply export_file.
Qed.

(** C2: a page whose status is not 200 adds no row; the run returns
    without an error and prints nothing but its two usual lines; the rows
    of the pages before it and after it are written in their order, and
    when those pages all have status 200 they are the rows of all their
    items. *)
Theorem failed_page_skipped (py_repr : pyval -> string)
    (local_root client_name : string) (now : datetime)
    (before after : list page) (p : page) (w : world) :
  status_not_200 p = true ->
  let csv := csv_filename local_root client_name now in
  let run :=
    export py_repr local_root client_name now
      (map Page (before ++ p :: after)) w in
  fst run = Ok tt
  /\ printed (trace (snd run)) =
       printed (trace w)
       ++ [ "DEBUG: folder_path = " +:+ folder_path local_root client_name now;
            "Results exported to local file: " +:+ csv ]
  /\ page_rows p = []
  /\ rows_written csv (trace (snd run)) =
       rows_written csv (trace w)
       ++ map PStr header :: flat_map page_rows before ++ flat_map page_rows after
  /\ files (snd run) !! csv =
       Some (csv_text py_repr
               (map PStr header
                :: flat_map page_rows before ++ flat_map page_rows after))
  /\ (Forall (fun q => status_not_200 q = false) (before ++ after) ->
      flat_map page_rows before ++ flat_map page_rows after =
        flat_map (fun q => map row (page_items q)) (before ++ after)).
Proof.
  intros Hp csv run. subst csv run.
  assert (Hrows : page_rows p = [])
    by (unfold page_rows; rewrite Hp; reflexivity).
  assert (Hdata : data_rows (map Page (before ++ p :: after)) =
                  flat_map page_rows before ++ flat_map page_rows after).
  { unfold data_rows. rewrite received_pages, flat_map_app. simpl.
    rewrite Hrows. reflexivity. }
  split; [| split; [| split; [| split; [| split]]]].
  - rewrite export_result. unfold outcome. rewrite failure_pages. reflexivity.
  - rewrite export_printed, failure_pages. reflexivity.
  - exact Hrows.
  - rewrite export_rows_written, Hdata. reflexivity.
  - rewrite export_file, Hdata. reflexivity.
  - intros Hok. rewrite <- flat_map_app. apply page_rows_ok. exact Hok.
Qed.

(** C5: when every page has status 200, the rows written after the header
    are the rows of the items, page by page in the order of the pages and,
    inside a page, in the order of its items; nothing is sorted, merged or
    dropped, and the file is the header line followed by their lines. *)
Theorem rows_in_page_order (py_repr : pyval -> string)
    (local_root client_name : string) (now : datetime)
    (pages : list page) (w : world) :
  Forall (fun p => status_not_200 p = false) pages ->
  let csv := csv_filename local_root client_name now in
  let run := export py_repr local_root client_name now (map Page pages) w in
  let rows := flat_map (fun p => map row (page_items p)) pages in
  fst run = Ok tt
  /\ rows_written csv (trace (snd run)) =
       rows_written csv (trace w) ++ map PStr header :: rows
  /\ files (snd run) !! csv =
       Some (csv_record py_repr (map PStr header) +:+ csv_text py_repr rows).
Proof.
  intros Hok csv run rows. subst csv run.
  assert (Hdata : data_rows (map Page pages) = rows).
  { unfold data_rows. rewrite received_pages. apply page_rows_ok, Hok. }
  split; [| split].
  - rewrite export_result. unfold outcome. rewrite failure_pages. reflexivity.
  - rewrite export_rows_written, Hdata. reflexivity.
  - rewrite export_file, Hdata. reflexivity.
Qed.

(** C6: a second run in the same year and month on the same upstream data
    writes the same path and leaves every file as the first run left it:
    the file is the header and the rows of one run, whatever was in it
    before. *)
Theorem export_twice_same_file (py_repr : pyval -> string)
    (local_root client_name : string) (now1 now2 : datetime)
    (upstream : list response) (w : world) :
  year now1 = year now2 ->
  month now1 = month now2 ->
  let csv := csv_filename local_root client_name now1 in
  let w1 := snd (export py_repr local_root client_name now1 upstream w) in
  let w2 := snd (export py_repr local_root client_name now2 upstream w1) in
  csv_filename local_root client_name now2 = csv
  /\ files w1 !! csv =
       Some (csv_text py_repr (map PStr header :: data_rows upstream))
  /\ files w2 !! csv = files w1 !! csv
  /\ files w2 = files w1.
Proof.
  intros Hy Hm csv w1 w2.
  assert (Hcsv : csv_filename local_root client_name now2 = csv).
  { subst csv. unfold csv_filename, folder_path, strftime_Ym.
    rewrite Hy, Hm. reflexivity. }
  assert (Hfiles : files w2 = files w1).
  { subst w2 w1. rewrite !export_run. cbn [snd files]. rewrite Hcsv.
    apply insert_insert_eq. }
  split; [exact Hcsv | split; [apply export_file | split]].
  - rewrite Hfiles. reflexivity.
  - exact Hfiles.
Qed.

(** C9: whatever fields an item has, its row has as many cells as the
    header has columns, 21; so has every row a run writes. *)
Theorem row_arity (py_repr : pyval -> string)
    (local_root client_name : string) (now : datetime)
    (upstream : list response) (w : world) (it : item) :
  length (row it) = length header
  /\ length (row it) = 21%nat
  /\ exists rows,
       rows_written (csv_filename local_root client_name now)
         (trace (snd (export py_repr local_root client_name now upstream w))) =
         rows_written (csv_filename local_root client_name now) (trace w) ++ rows
       /\ Forall (fun cells => length cells = length header) rows.
Proof.
  split; [reflexivity | split; [reflexivity |]].
  exists (map PStr header :: data_rows upstream).
  split; [apply export_rows_written |].
  constructor; [reflexivity |].
  unfold data_rows. induction (received upstream) as [| p ps IH]; simpl.
  - constructor.
  - apply Forall_app. split; [| exact IH].
    unfold page_rows. destruct (status_not_200 p); [constructor |].
    induction (page_items p) as [| i its IHi]; simpl; constructor; auto.
Qed.

(** ** The output path *)

Lemma pretty_four_digits (x : N) :
  (1000 <= x <= 9999)%N ->
  pretty x =
    String (pretty_N_char ((x / 1000) mod 10)%N)
      (String (pretty_N_char ((x / 100) mod 10)%N)
         (String (pretty_N_char ((x / 10) mod 10)%N)
            (String (pretty_N_char (x mod 10)%N) ""))).
Proof.
  intros Hx. unfold pretty, pretty_N.
  destruct (decide (x = 0%N)) as [-> | _]; [lia |].
  assert (H1 : (0 < x / 10)%N) by (apply N.div_str_pos; lia).
  assert (H2 : (0 < x / 10 / 10)%N).
  { rewrite N.Div0.div_div. apply N.div_str_pos; lia. }
  assert (H3 : (0 < x / 10 / 10 / 10)%N).
  { rewrite !N.Div0.div_div. apply N.div_str_pos; lia. }
  assert (H4 : (x / 10 / 10 / 10 / 10 = 0)%N).
  { rewrite !N.Div0.div_div. apply N.div_small; lia. }
  rewrite (pretty_N_go_step x) by lia.
  rewrite (pretty_N_go_step (x / 10)) by exact H1.
  rewrite (pretty_N_go_step (x / 10 / 10)) by exact H2.
  rewrite (pretty_N_go_step (x / 10 / 10 / 10)) by exact H3.
  rewrite H4, pretty_N_go_0, !N.Div0.div_div. reflexivity.
Qed.

Lemma strftime_Ym_digits (now : datetime) :
  1000 <= year now <= 9999 ->
  1 <= month now <= 12 ->
  strftime_Ym now = YYYYMM now.
Proof.
  destruct now as [y m d]. cbn [year month]. intros Hy Hm.
  unfold strftime_Ym, YYYYMM. cbn [year month].
  assert (Hyear : zfill 4 (pretty y) =
                  String (digit y 3) (String (digit y 2)
                    (String (digit y 1) (String (digit y 0) "")))).
  { destruct y as [| p | p]; try lia.
    change (pretty (Z.pos p)) with (pretty (N.pos p)).
    rewrite pretty_four_digits by lia. unfold digit.
    change (Z.to_N (Z.pos p)) with (N.pos p).
    change (N.pos p / 10 ^ N.of_nat 0)%N with (N.pos p / 1)%N.
    rewrite N.div_1_r. reflexivity. }
  rewrite Hyear.
  assert (Hmonth : m = 1 \/ m = 2 \/ m = 3 \/ m = 4 \/ m = 5 \/ m = 6 \/
                   m = 7 \/ m = 8 \/ m = 9 \/ m = 10 \/ m = 11 \/ m = 12)
    by lia.
  repeat (destruct Hmonth as [-> | Hmonth]; [reflexivity |]).
  subst m. reflexivity.
Qed.

Lemma append_eq_nil (s t : string) : s +:+ t = "" -> s = "" /\ t = "".
Proof.
  destruct s as [| c s]; [rewrite append_nil_l; intros ->; auto |].
  rewrite append_cons. discriminate.
Qed.

Lemma endswith_sep_app (s t : string) :
  t <> "" -> endswith_sep (s +:+ t) = endswith_sep t.
Proof.
  intros Ht. induction s as [| c s IH]; [reflexivity |].
  rewrite append_cons. cbn [endswith_sep].
  destruct (s +:+ t) as [| c' u] eqn:E; [| exact IH].
  apply append_eq_nil in E as [_ E]. contradiction.
Qed.

Lemma join_step_relative (path b : string) :
  startswith_sep b = false -> join_step path b = with_sep path +:+ b.
Proof.
  intros Hb. unfold join_step, with_sep. rewrite Hb.
  destruct (bool_decide (path = "") || endswith_sep path);
    [reflexivity | rewrite append_assoc; reflexivity].
Qed.

Lemma with_sep_idemp (s : string) : with_sep (with_sep s) = with_sep s.
Proof.
  unfold with_sep at 2 3.
  destruct (bool_decide (s = "") || endswith_sep s) eqn:E.
  - unfold with_sep. rewrite E. reflexivity.
  - unfold with_sep. rewrite endswith_sep_app by discriminate.
    rewrite orb_true_r. reflexivity.
Qed.

Lemma with_sep_app (s t : string) :
  t <> "" -> with_sep (s +:+ t) = s +:+ with_sep t.
Proof.
  intros Ht. unfold with_sep.
  rewrite endswith_sep_app by exact Ht.
  rewrite !bool_decide_eq_false_2; [| exact Ht |].
  - simpl. destruct (endswith_sep t); [reflexivity | apply append_assoc].
  - intros E. apply append_eq_nil in E as [_ E]. contradiction.
Qed.

Lemma digit_not_sep (n : N) : pretty_N_char n <> "/"%char.
Proof. unfold pretty_N_char. repeat case_match; discriminate. Qed.

Lemma startswith_sep_YYYYMM (now : datetime) :
  startswith_sep (YYYYMM now) = false.
Proof.
  unfold YYYYMM, startswith_sep.
  pose proof (digit_not_sep ((Z.to_N (year now) / 10 ^ N.of_nat 3) mod 10)) as H.
  fold (digit (year now) 3) in H.
  destruct (digit (year now) 3) as [[] [] [] [] [] [] [] []];
    try reflexivity; contradiction.
Qed.

Lemma with_sep_YYYYMM (s : string) (now : datetime) :
  with_sep (s +:+ YYYYMM now) = s +:+ YYYYMM now +:+ "/".
Proof.
  rewrite with_sep_app by discriminate. f_equal.
  unfold with_sep, YYYYMM. cbn [endswith_sep].
  rewrite !bool_decide_eq_false_2; [reflexivity | | discriminate].
  apply digit_not_sep.
Qed.

(** C4, as the code has it: when the client name does not begin with a
    separator and the date has a four-digit year, the path is the root,
    the client name, the six digits of year and month and the file name,
    each directory followed by exactly the separator it lacks. *)
Theorem csv_filename_shape (local_root client_name : string)
    (now : datetime) :
  startswith_sep client_name = false ->
  1000 <= year now <= 9999 ->
  1 <= month now <= 12 ->
  csv_filename local_root client_name now =
    with_sep local_root +:+ with_sep client_name +:+ YYYYMM now +:+ "/"
      +:+ client_name +:+ "_recommendations.csv".
Proof.
  intros Hc Hy Hm. unfold csv_filename, folder_path, os_path_join.
  cbn [fold_left]. rewrite strftime_Ym_digits by assumption.
  rewrite (join_step_relative local_root) by exact Hc.
  rewrite (join_step_relative _ (YYYYMM now)) by apply startswith_sep_YYYYMM.
  rewrite join_step_relative.
  2:{ destruct client_name as [| c s]; [reflexivity | exact Hc]. }
  rewrite with_sep_YYYYMM.
  assert (Hdir : with_sep (with_sep local_root +:+ client_name) =
                 with_sep local_root +:+ with_sep client_name).
  { destruct client_name as [| c s].
    - rewrite append_nil_r, with_sep_idemp.
      change (with_sep "") with "". rewrite append_nil_r. reflexivity.
    - apply with_sep_app. discriminate. }
  rewrite Hdir, !append_assoc. reflexivity.
Qed.

(** The example of C4: client [Acme] under [/data/] in July 2024. *)
Lemma csv_filename_shape_acme :
  csv_filename "/data/" "Acme" {| year := 2024; month := 7; day := 15 |} =
    "/data/Acme/202407/Acme_recommendations.csv".
Proof.
  rewrite (csv_filename_shape "/data/" "Acme"
             {| year := 2024; month := 7; day := 15 |});
    [reflexivity | reflexivity | simpl; lia | simpl; lia].
Defined.

(** C4, as the specification states it, fails: a client name that begins
    with a separator makes [os.path.join] drop the root and the date
    folder, so the path is not the one the template gives. *)
Lemma csv_filename_absolute_client :
  let now := {| year := 2024; month := 7; day := 15 |} in
  csv_filename "/data" "/x" now = "/x_recommendations.csv"
  /\ csv_filename "/data" "/x" now <> path_template "/data" "/x" "202407".
Proof. split; [reflexivity | discriminate]. Qed.

(** ** The row of an item *)

Lemma row_as_map (it : item) : row it = dict_get it <$> row_keys.
Proof. reflexivity. Qed.

Lemma row_keys_NoDup : NoDup row_keys.
Proof. apply (bool_decide_unpack _). vm_compute. exact I. Qed.

(** C3: the cell of each column is the value the item has under the key of
    that column; when the key is absent the cell is [None], which the
    writer renders as an empty cell, and nothing is raised; taking a field
    away from an item empties its column and changes no other cell. *)
Theorem row_column (py_repr : pyval -> string) (it : item) (i : nat)
    (k : string) :
  row_keys !! i = Some k ->
  row it !! i = Some (dict_get it k)
  /\ (forall v, it !! k = Some v -> row it !! i = Some v)
  /\ (it !! k = None ->
      row it !! i = Some PNone /\ cell_text py_repr PNone = "")
  /\ row (delete k it) = <[i := PNone]> (row it).
Proof.
  intros Hk.
  assert (Hcell : row it !! i = Some (dict_get it k)).
  { rewrite row_as_map, list_lookup_fmap, Hk. reflexivity. }
  split; [exact Hcell | split; [| split]].
  - intros v Hv. rewrite Hcell. unfold dict_get. rewrite Hv. reflexivity.
  - intros Hv. rewrite Hcell. unfold dict_get. rewrite Hv. split; reflexivity.
  - rewrite !row_as_map. apply list_eq. intros j.
    destruct (decide (j = i)) as [-> | Hne].
    + rewrite list_lookup_insert_eq.
      2:{ rewrite length_fmap. eapply lookup_lt_Some, Hk. }
      rewrite list_lookup_fmap, Hk. unfold dict_get. simpl.
      rewrite lookup_delete_eq. reflexivity.
    + rewrite list_lookup_insert_ne by congruence.
      rewrite !list_lookup_fmap.
      destruct (row_keys !! j) as [k' |] eqn:Hj; [| reflexivity].
      simpl. f_equal. unfold dict_get. rewrite lookup_delete_ne; [reflexivity |].
      intros <-. apply Hne.
      exact (NoDup_lookup _ _ _ _ row_keys_NoDup Hj Hk).
Qed.

(** [item_a] has no region: its fifteenth cell is empty, the others are
    those of the item. *)
Lemma row_column_region :
  row item_a !! 14%nat = Some PNone
  /\ row item_a !! 0%nat = Some (PStr "111122223333").
Proof.
  split.
  - apply (row_column sample_repr item_a 14 "region" eq_refl). reflexivity.
  - apply (row_column sample_repr item_a 0 "accountId" eq_refl). reflexivity.
Defined.

(** ** Scenarios *)

(** Two pages, the first with status 200 and two items, the second with
    status 500 and one item: the header and the two rows of the first
    page are written, in order, and the run ends without an error. *)
Lemma failed_page_skipped_scenario :
  let csv := csv_filename local_root client_name july_2024 in
  let run :=
    main sample_repr
      (fun _ _ =>
         [Page (page_of 200 [item_a; item_b]); Page (page_of 500 [item_a])])
      july_2024 empty_world in
  fst run = Ok tt
  /\ rows_written csv (trace (snd run)) =
       [map PStr header; row item_a; row item_b].
Proof.
  intros csv run.
  destruct (failed_page_skipped sample_repr local_root client_name july_2024
              [page_of 200 [item_a; item_b]] [] (page_of 500 [item_a])
              empty_world eq_refl) as (Hok & _ & _ & Hrows & _).
  split; [exact Hok | exact Hrows].
Defined.

(** Two pages with status 200: the rows follow the pages and, in a page,
    the items; a repeated item gives a repeated row. *)
Lemma rows_in_page_order_scenario :
  let csv := csv_filename local_root client_name july_2024 in
  let run :=
    main sample_repr
      (fun _ _ =>
         [Page (page_of 200 [item_b; item_a]); Page (page_of 200 [item_b])])
      july_2024 empty_world in
  rows_written csv (trace (snd run)) =
    [map PStr header; row item_b; row item_a; row item_b].
Proof.
  intros csv run.
  assert (Hok : Forall (fun p => status_not_200 p = false)
                  [page_of 200 [item_b; item_a]; page_of 200 [item_b]])
    by (repeat constructor).
  destruct (rows_in_page_order sample_repr local_root client_name july_2024
              _ empty_world Hok) as (_ & Hrows & _).
  exact Hrows.
Defined.

(** Two runs in July 2024 on the same page: the second leaves the files
    as the first left them. *)
Lemma export_twice_same_file_scenario :
  let later := {| year := 2024; month := 7; day := 28 |} in
  let paginate : paginator := fun _ _ => [Page (page_of 200 [item_a])] in
  let w1 := snd (main sample_repr paginate july_2024 empty_world) in
  let w2 := snd (main sample_repr paginate later w1) in
  files w2 = files w1.
Proof.
  intros later paginate w1 w2.
  destruct (export_twice_same_file sample_repr local_root client_name
              july_2024 later (paginate recommendations_filter true)
              empty_world eq_refl eq_refl)
    as (_ & _ & _ & Hfiles).
  exact Hfiles.
Defined.

(** ** The environment reader *)

(** C8: [get_env_str] joins a list or a tuple with commas, raises a
    [RuntimeError] that names the variable when the value is [None] and
    the variable is required, and otherwise returns [str] of the value, or
    [None] when the value is absent and not required. *)
Theorem get_env_str_cases (py_repr : pyval -> string)
    (environ : gmap string string) (name : string) (default : pyval)
    (required : bool) :
  get_env_str py_repr environ name default required =
    match os_environ_get environ name default with
    | PList xs | PTuple xs =>
        Ok (PStr (str_join "," (map (py_str py_repr) xs)))
    | PNone =>
        if required
        then Raise (RuntimeError
                      ("Missing required environment variable: " +:+ name))
        else Ok PNone
    | v => Ok (PStr (py_str py_repr v))
    end.
Proof.
  unfold get_env_str.
  destruct (os_environ_get environ name default)
    as [| b | z | s | xs | xs | t]; reflexivity.
Qed.

Example get_env_str_list :
  get_env_str sample_repr ∅ "REGIONS"
    (PList [PStr "us-east-1"; PInt 2; PBool true]) true =
    Ok (PStr "us-east-1,2,True").
Proof. reflexivity. Qed.

Example get_env_str_missing :
  get_env_str sample_repr {[ "HOME" := "/root" ]} "CLIENT" PNone true =
    Raise (RuntimeError "Missing required environment variable: CLIENT").
Proof. reflexivity. Qed.

Example get_env_str_set :
  get_env_str sample_repr {[ "CLIENT" := "Acme" ]} "CLIENT" (PInt 3) true =
    Ok (PStr "Acme").
Proof. reflexivity. Qed.

(** * Further properties *)

(** ** [get_env_str]: errors and shapes *)

(** X1: [get_env_str] raises exactly when the variable is required, is not
    in the environment, and the default is [None]; the error is then the
    [RuntimeError] that names the variable.  An empty list or an empty
    string is a value: neither raises. *)
Theorem get_env_str_raises_iff (py_repr : pyval -> string)
    (environ : gmap string string) (name : string) (default : pyval)
    (required : bool) :
  ((exists e, get_env_str py_repr environ name default required = Raise e)
   <-> required = true /\ environ !! name = None /\ default = PNone)
  /\ (forall e,
        get_env_str py_repr environ name default required = Raise e ->
        e = RuntimeError ("Missing required environment variable: " +:+ name)).
Proof.
  unfold get_env_str, os_environ_get.
  destruct (environ !! name) as [s |]; simpl.
  - split; [split |]; [intros [e He] | intros (_ & He & _) | intros e He];
      discriminate.
  - destruct default as [| b | z | s | xs | xs | t]; simpl;
      try (split; [split |]; [intros [e He] | intros (_ & _ & He) | intros e He];
           discriminate).
    destruct required; simpl.
    + split; [split |]; [auto | eauto | intros e He; congruence].
    + split; [split |]; [intros [e He] | intros (He & _) | intros e He];
        discriminate.
Qed.

(** X2: a variable that is set wins over the default, and its value comes
    back unchanged, also when it is the empty string and required. *)
Theorem get_env_str_environ_wins (py_repr : pyval -> string)
    (environ : gmap string string) (name s : string) (default : pyval)
    (required : bool) :
  environ !! name = Some s ->
  get_env_str py_repr environ name default required = Ok (PStr s).
Proof.
  intros Hs. unfold get_env_str, os_environ_get. rewrite Hs. reflexivity.
Qed.

Lemma get_env_str_environ_wins_empty :
  get_env_str sample_repr {[ "CLIENT" := "" ]} "CLIENT"
    (PList [PStr "a"; PStr "b"]) true = Ok (PStr "").
Proof.
  apply (get_env_str_environ_wins sample_repr {[ "CLIENT" := "" ]} "CLIENT" "").
  reflexivity.
Defined.

(** X3: what [get_env_str] returns is a string or [None], never a list or
    a tuple or another object; it is [None] only for a variable that is not
    required. *)
Theorem get_env_str_returns_str_or_none (py_repr : pyval -> string)
    (environ : gmap string string) (name : string) (default v : pyval)
    (required : bool) :
  get_env_str py_repr environ name default required = Ok v ->
  (exists s, v = PStr s) \/ (v = PNone /\ required = false).
Proof.
  unfold get_env_str.
  destruct (os_environ_get environ name default) as [| b | z | s | xs | xs | t];
    simpl; try (intros [= <-]; left; eexists; reflexivity).
  destruct required; simpl; [discriminate |].
  intros [= <-]. right. split; reflexivity.
Qed.

Lemma get_env_str_returns_str_or_none_tuple :
  (exists s, PStr "1,2" = PStr s) \/ (PStr "1,2" = PNone /\ false = false).
Proof.
  apply (get_env_str_returns_str_or_none sample_repr ∅ "PORTS"
           (PTuple [PInt 1; PInt 2]) (PStr "1,2") false).
  reflexivity.
Defined.

(** X4: a value that [get_env_str] returned passes through it unchanged
    when it is given back as the default. *)
Theorem get_env_str_idempotent (py_repr : pyval -> string)
    (environ : gmap string string) (name : string) (default v : pyval)
    (required : bool) :
  get_env_str py_repr environ name default required = Ok v ->
  get_env_str py_repr environ name v required = Ok v.
Proof.
  unfold get_env_str, os_environ_get.
  destruct (environ !! name) as [s |]; simpl; [auto |].
  destruct default as [| b | z | s | xs | xs | t]; simpl;
    try (intros [= <-]; reflexivity).
  destruct required; simpl; [discriminate |].
  intros [= <-]. reflexivity.
Qed.

Lemma get_env_str_idempotent_list :
  get_env_str sample_repr ∅ "REGIONS" (PStr "us-east-1,eu-west-1") true =
    Ok (PStr "us-east-1,eu-west-1").
Proof.
  apply (get_env_str_idempotent sample_repr ∅ "REGIONS"
           (PList [PStr "us-east-1"; PStr "eu-west-1"])).
  reflexivity.
Defined.

(** ** Rows: what an item can and cannot change *)

Lemma not_in_row_keys (k k' : string) :
  k ∉ row_keys -> k' ∈ row_keys -> k <> k'.
Proof. intros Hk Hk' ->. contradiction. Qed.

Lemma row_ext (it1 it2 : item) :
  (forall k, k ∈ row_keys -> dict_get it1 k = dict_get it2 k) ->
  row it1 = row it2.
Proof.
  intros H. rewrite !row_as_map. apply list_eq. intros i.
  rewrite !list_lookup_fmap.
  destruct (row_keys !! i) as [k |] eqn:Hk; [| reflexivity].
  simpl. f_equal. apply H. eapply list_elem_of_lookup_2, Hk.
Qed.

(** X5: a field the row does not read changes nothing: whatever value an
    item has under a key outside the 21 keys of the columns, its row is
    the same. *)
Theorem row_ignores_other_keys (it : item) (k : string) (v : pyval) :
  k ∉ row_keys ->
  row (<[k := v]> it) = row it /\ row (delete k it) = row it.
Proof.
  intros Hk. split; apply row_ext; intros k' Hk'; unfold dict_get.
  - rewrite lookup_insert_ne by (eapply not_in_row_keys; eassumption).
    reflexivity.
  - rewrite lookup_delete_ne by (eapply not_in_row_keys; eassumption).
    reflexivity.
Qed.

Lemma row_ignores_other_keys_score :
  row (<["recommendationScore" := PInt 7]> item_a) = row item_a.
Proof.
  apply (row_ignores_other_keys item_a "recommendationScore" (PInt 7)).
  apply (bool_decide_unpack _). vm_compute. exact I.
Defined.

(** X6: a field whose value is [None] is written like a field that is
    absent: the rows of the two items are equal. *)
Theorem row_none_is_absent (it : item) (k : string) :
  row (<[k := PNone]> it) = row (delete k it).
Proof.
  apply row_ext. intros k' _. unfold dict_get.
  destruct (decide (k = k')) as [<- | Hne].
  - rewrite lookup_insert_eq, lookup_delete_eq. reflexivity.
  - rewrite lookup_insert_ne, lookup_delete_ne by exact Hne. reflexivity.
Qed.

(** X7: an item that has none of the 21 fields is written as a line of 20
    commas: 21 empty cells, no quotes. *)
Theorem row_of_blank_item (py_repr : pyval -> string) (it : item) :
  (forall k, k ∈ row_keys -> it !! k = None) ->
  row it = replicate 21 PNone
  /\ csv_record py_repr (row it) = ",,,,,,,,,,,,,,,,,,,," +:+ lineterminator.
Proof.
  intros Hnone.
  assert (Hrow : row it = row ∅).
  { apply row_ext. intros k Hk. unfold dict_get.
    rewrite (Hnone k Hk), lookup_empty. reflexivity. }
  rewrite Hrow. split; reflexivity.
Qed.

Lemma row_of_blank_item_unrelated :
  csv_record sample_repr (row {[ "nextToken" := PStr "abc" ]}) =
    ",,,,,,,,,,,,,,,,,,,," +:+ lineterminator.
Proof.
  apply (row_of_blank_item sample_repr {[ "nextToken" := PStr "abc" ]}).
  intros k Hk. apply lookup_singleton_ne. intros <-.
  revert Hk. apply (bool_decide_unpack _). vm_compute. exact I.
Defined.

(** ** The date folder and the place of the file *)

Lemma isdigit_pretty_N_char (n : N) : isdigit (pretty_N_char n) = true.
Proof. unfold pretty_N_char. repeat case_match; reflexivity. Qed.

Lemma folder_path_relative (local_root client_name : string)
    (now : datetime) :
  startswith_sep client_name = false ->
  1000 <= year now <= 9999 ->
  1 <= month now <= 12 ->
  folder_path local_root client_name now =
    with_sep local_root +:+ with_sep client_name +:+ YYYYMM now.
Proof.
  intros Hc Hy Hm. unfold folder_path, os_path_join. cbn [fold_left].
  rewrite strftime_Ym_digits by assumption.
  rewrite (join_step_relative local_root) by exact Hc.
  rewrite join_step_relative by apply startswith_sep_YYYYMM.
  destruct client_name as [| c s].
  - rewrite append_nil_r, with_sep_idemp. reflexivity.
  - rewrite with_sep_app by discriminate. apply append_assoc.
Qed.

Lemma four_digits_sum (x : N) :
  (x <= 9999)%N ->
  x = (1000 * ((x / 1000) mod 10) + 100 * ((x / 100) mod 10)
       + 10 * ((x / 10) mod 10) + x mod 10)%N.
Proof.
  intros Hx.
  pose proof (N.div_mod x 10 ltac:(discriminate)) as E0.
  pose proof (N.div_mod (x / 10) 10 ltac:(discriminate)) as E1.
  pose proof (N.div_mod (x / 100) 10 ltac:(discriminate)) as E2.
  assert (D1 : (x / 10 / 10 = x / 100)%N)
    by (rewrite N.Div0.div_div; reflexivity).
  assert (D2 : (x / 100 / 10 = x / 1000)%N)
    by (rewrite N.Div0.div_div; reflexivity).
  rewrite D1 in E1. rewrite D2 in E2.
  assert (Hq : (x / 1000 < 10)%N)
    by (apply N.Div0.div_lt_upper_bound; lia).
  rewrite (N.mod_small (x / 1000) 10) by exact Hq.
  lia.
Qed.

Lemma digits_determine (a b : N) :
  (a <= 9999)%N -> (b <= 9999)%N ->
  pretty_N_char ((a / 10 ^ N.of_nat 3) mod 10) =
    pretty_N_char ((b / 10 ^ N.of_nat 3) mod 10) ->
  pretty_N_char ((a / 10 ^ N.of_nat 2) mod 10) =
    pretty_N_char ((b / 10 ^ N.of_nat 2) mod 10) ->
  pretty_N_char ((a / 10 ^ N.of_nat 1) mod 10) =
    pretty_N_char ((b / 10 ^ N.of_nat 1) mod 10) ->
  pretty_N_char ((a / 10 ^ N.of_nat 0) mod 10) =
    pretty_N_char ((b / 10 ^ N.of_nat 0) mod 10) ->
  a = b.
Proof.
  intros Ha Hb H3 H2 H1 H0.
  change (10 ^ N.of_nat 3)%N with 1000%N in H3.
  change (10 ^ N.of_nat 2)%N with 100%N in H2.
  change (10 ^ N.of_nat 1)%N with 10%N in H1.
  change (10 ^ N.of_nat 0)%N with 1%N in H0.
  apply pretty_N_char_inj in H3; [| apply N.mod_lt; discriminate ..].
  apply pretty_N_char_inj in H2; [| apply N.mod_lt; discriminate ..].
  apply pretty_N_char_inj in H1; [| apply N.mod_lt; discriminate ..].
  apply pretty_N_char_inj in H0; [| apply N.mod_lt; discriminate ..].
  rewrite !N.div_1_r in H0.
  rewrite (four_digits_sum a Ha), (four_digits_sum b Hb), H3, H2, H1, H0.
  reflexivity.
Qed.

Lemma YYYYMM_inj (now1 now2 : datetime) (s1 s2 : string) :
  1000 <= year now1 <= 9999 -> 1 <= month now1 <= 12 ->
  1000 <= year now2 <= 9999 -> 1 <= month now2 <= 12 ->
  YYYYMM now1 +:+ s1 = YYYYMM now2 +:+ s2 ->
  year now1 = year now2 /\ month now1 = month now2.
Proof.
  intros Hy1 Hm1 Hy2 Hm2. unfold YYYYMM. rewrite !append_cons.
  intros [= Y3 Y2 Y1 Y0 M1 M0 _]. unfold digit in *.
  assert (Hy : Z.to_N (year now1) = Z.to_N (year now2))
    by (apply digits_determine; (assumption || lia)).
  assert (Hm : Z.to_N (month now1) = Z.to_N (month now2)).
  { apply digits_determine; try assumption; try lia.
    - rewrite !(N.div_small _ (10 ^ N.of_nat 3)); [reflexivity | |];
        change (10 ^ N.of_nat 3)%N with 1000%N; lia.
    - rewrite !(N.div_small _ (10 ^ N.of_nat 2)); [reflexivity | |];
        change (10 ^ N.of_nat 2)%N with 100%N; lia. }
  lia.
Qed.

(** X8: for a date with a four-digit year, the name of the date folder
    has six characters, all of them decimal digits. *)
Theorem strftime_Ym_six_digits (now : datetime) :
  1000 <= year now <= 9999 ->
  1 <= month now <= 12 ->
  String.length (strftime_Ym now) = 6%nat
  /\ Forall (fun c => isdigit c = true)
       (String.list_ascii_of_string (strftime_Ym now)).
Proof.
  intros Hy Hm. rewrite strftime_Ym_digits by assumption.
  split; [reflexivity |].
  unfold YYYYMM, digit. cbn [String.list_ascii_of_string].
  repeat constructor; apply isdigit_pretty_N_char.
Qed.

Lemma strftime_Ym_six_digits_december :
  String.length (strftime_Ym {| year := 2031; month := 12; day := 31 |})
    = 6%nat.
Proof.
  apply (strftime_Ym_six_digits {| year := 2031; month := 12; day := 31 |});
    simpl; lia.
Defined.

(** X9: whatever the root, the client name and the date, the path of the
    file ends with the client name followed by [_recommendations.csv]. *)
Theorem csv_filename_suffix (local_root client_name : string)
    (now : datetime) :
  exists dir,
    csv_filename local_root client_name now =
      dir +:+ client_name +:+ "_recommendations.csv".
Proof.
  unfold csv_filename, os_path_join. cbn [fold_left].
  set (folder := folder_path local_root client_name now).
  unfold join_step.
  destruct (startswith_sep (client_name +:+ "_recommendations.csv")).
  - exists "". reflexivity.
  - destruct (bool_decide (folder = "") || endswith_sep folder).
    + exists folder. reflexivity.
    + exists (folder +:+ "/"). rewrite append_assoc. reflexivity.
Qed.



(** X11: a client name that begins with a separator makes the path forget
    the root and the date: the file is the client name followed by
    [_recommendations.csv], outside the folder that the run creates, which
    is the date folder under the client name. *)
Theorem absolute_client_name_drops_root (local_root client_name : string)
    (now : datetime) :
  startswith_sep client_name = true ->
  1000 <= year now <= 9999 ->
  1 <= month now <= 12 ->
  csv_filename local_root client_name now =
    client_name +:+ "_recommendations.csv"
  /\ folder_path local_root client_name now =
       with_sep client_name +:+ YYYYMM now.
Proof.
  intros Hc Hy Hm.
  assert (Hfolder : folder_path local_root client_name now =
                    with_sep client_name +:+ YYYYMM now).
  { unfold folder_path, os_path_join. cbn [fold_left].
    rewrite strftime_Ym_digits by assumption.
    unfold join_step at 2. rewrite Hc.
    apply join_step_relative, startswith_sep_YYYYMM. }
  split; [| exact Hfolder].
  unfold csv_filename, os_path_join. cbn [fold_left]. unfold join_step.
  destruct client_name as [| c s]; [discriminate Hc |].
  rewrite append_cons. cbn [startswith_sep] in Hc |- *.
  rewrite Hc. reflexivity.
Qed.

Lemma absolute_client_name_drops_root_tmp :
  csv_filename local_root "/tmp/acme" july_2024 =
    "/tmp/acme_recommendations.csv"
  /\ folder_path local_root "/tmp/acme" july_2024 = "/tmp/acme/202407".
Proof.
  apply (absolute_client_name_drops_root local_root "/tmp/acme" july_2024);
    [reflexivity | simpl; lia | simpl; lia].
Defined.

(** ** Runs: requests, aborted runs, other files *)




Lemma received_aborted (pages : list page) (e : exn) (rest : list response) :
  received (map Page pages ++ Fails e :: rest) = pages.
Proof. induction pages as [| p ps IH]; simpl; congruence. Qed.

Lemma failure_aborted (pages : list page) (e : exn) (rest : list response) :
  failure (map Page pages ++ Fails e :: rest) = Some e.
Proof. induction pages as [| p ps IH]; simpl; congruence. Qed.

Lemma loop_events_aborted (path : string) (pages : list page) (e : exn)
    (rest : list response) :
  loop_events path (map Page pages ++ Fails e :: rest) =
    loop_events path (map Page pages ++ [Fails e]).
Proof. induction pages as [| p ps IH]; simpl; congruence. Qed.

Lemma loop_events_are_loop_events (path : string) (upstream : list response) :
  Forall (fun ev => is_loop_event path ev = true) (loop_events path upstream).
Proof.
  induction upstream as [| [pg | e] rest IH]; cbn [loop_events].
  - constructor.
  - constructor; [reflexivity |]. apply Forall_app. split; [| exact IH].
    induction (page_rows pg) as [| cells rows IHr]; constructor;
      [apply bool_decide_eq_true_2; reflexivity | exact IHr].
  - repeat constructor.
Qed.

Lemma data_rows_kept_items (pages : list page) :
  data_rows (map Page pages) = map row (kept_items pages).
Proof.
  unfold data_rows, kept_items. rewrite received_pages.
  induction pages as [| p ps IH]; [reflexivity |].
  cbn [flat_map]. rewrite map_app, IH. f_equal.
  unfold page_rows. destruct (status_not_200 p); reflexivity.
Qed.

(** X12: a run that the SDK call aborts raises the exception of the call,
    does not print the completion line, leaves in the file the header and
    the rows of the pages received before the failure, and closes the
    file last; what the listing would have given after the failure plays
    no part. *)
Theorem aborted_run (py_repr : pyval -> string)
    (local_root client_name : string) (now : datetime)
    (pages : list page) (e : exn) (rest : list response) (w : world) :
  let csv := csv_filename local_root client_name now in
  let run :=
    export py_repr local_root client_name now
      (map Page pages ++ Fails e :: rest) w in
  fst run = Raise e
  /\ printed (trace (snd run)) =
       printed (trace w)
       ++ ["DEBUG: folder_path = " +:+ folder_path local_root client_name now]
  /\ files (snd run) !! csv =
       Some (csv_record py_repr (map PStr header)
             +:+ csv_text py_repr (flat_map page_rows pages))
  /\ (exists evs, trace (snd run) = evs ++ [EvClose csv])
  /\ run =
       export py_repr local_root client_name now
         (map Page pages ++ [Fails e]) w.
Proof.
  intros csv run. subst csv run.
  split; [| split; [| split; [| split]]].
  - rewrite export_result. unfold outcome. rewrite failure_aborted.
    reflexivity.
  - rewrite export_printed, failure_aborted. reflexivity.
  - rewrite export_file. unfold data_rows. rewrite received_aborted.
    reflexivity.
  - rewrite export_run. cbn [snd trace]. unfold run_events.
    rewrite failure_aborted. eexists. rewrite !app_assoc. reflexivity.
  - rewrite !export_run. unfold outcome, data_rows, run_events.
    rewrite !failure_aborted, !received_aborted, loop_events_aborted.
    reflexivity.
Qed.


(** X14: a run changes no file but its own: every other path holds after
    the run what it held before. *)
Theorem other_files_untouched (py_repr : pyval -> string)
    (local_root client_name : string) (now : datetime)
    (upstream : list response) (w : world) (path : string) :
  path <> csv_filename local_root client_name now ->
  files (snd (export py_repr local_root client_name now upstream w)) !! path =
    files w !! path.
Proof. apply export_other_files. Qed.

Lemma other_files_untouched_notes :
  files (snd (main sample_repr
                (fun _ _ => [Page (page_of 200 [item_a])]) july_2024
                {| files := {[ "/tmp/notes.txt" := "keep" ]}; trace := [] |}))
    !! "/tmp/notes.txt" = Some "keep".
Proof.
  unfold main.
  rewrite (other_files_untouched sample_repr local_root client_name july_2024);
    [reflexivity |].
  intros H. vm_compute in H. discriminate H.
Defined.

(** X15: the file depends on the pages only through the items of the
    pages with status 200, taken in order: two listings that give the same
    items, cut into pages differently or mixed with skipped pages, leave
    the same files and write the same rows. *)
Theorem page_boundaries_invisible (py_repr : pyval -> string)
    (local_root client_name : string) (now : datetime)
    (pages1 pages2 : list page) (w : world) :
  kept_items pages1 = kept_items pages2 ->
  let csv := csv_filename local_root client_name now in
  let run1 := export py_repr local_root client_name now (map Page pages1) w in
  let run2 := export py_repr local_root client_name now (map Page pages2) w in
  files (snd run1) = files (snd run2)
  /\ rows_written csv (trace (snd run1)) = rows_written csv (trace (snd run2))
  /\ files (snd run1) !! csv =
       Some (csv_record py_repr (map PStr header)
             +:+ csv_text py_repr (map row (kept_items pages1))).
Proof.
  intros Hitems csv run1 run2. subst csv run1 run2.
  split; [| split].
  - rewrite !export_run. cbn [snd files].
    rewrite !data_rows_kept_items, Hitems. reflexivity.
  - rewrite !export_rows_written, !data_rows_kept_items, Hitems. reflexivity.
  - rewrite export_file, data_rows_kept_items. reflexivity.
Qed.

Lemma page_boundaries_invisible_regrouped :
  files (snd (main sample_repr
                (fun _ _ => [Page (page_of 200 [item_a; item_b])])
                july_2024 empty_world)) =
  files (snd (main sample_repr
                (fun _ _ => [Page (page_of 200 [item_a]);
                             Page (page_of 503 [item_a]);
                             Page (page_of 200 []);
                             Page (page_of 200 [item_b])])
                july_2024 empty_world)).
Proof.
  apply (page_boundaries_invisible sample_repr local_root client_name july_2024
           [page_of 200 [item_a; item_b]]
           [page_of 200 [item_a]; page_of 503 [item_a]; page_of 200 [];
            page_of 200 [item_b]]
           empty_world).
  reflexivity.
Defined.

Lemma kept_items_app (pages1 pages2 : list page) :
  kept_items (pages1 ++ pages2) = kept_items pages1 ++ kept_items pages2.
Proof. unfold kept_items. apply flat_map_app. Qed.

(** X16: a page that lacks [ResponseMetadata], or whose metadata lack
    [HTTPStatusCode], is skipped with its items; a page that lacks [items],
    or whose [items] is empty, writes nothing.  In each case the run ends
    without an error and leaves the files it would leave without that
    page. *)
Theorem page_without_rows (py_repr : pyval -> string)
    (local_root client_name : string) (now : datetime)
    (before after : list page) (p : page) (w : world) :
  ResponseMetadata p = None
  \/ (exists md, ResponseMetadata p = Some md /\ HTTPStatusCode md = None)
  \/ items p = None
  \/ items p = Some [] ->
  let csv := csv_filename local_root client_name now in
  let run :=
    export py_repr local_root client_name now
      (map Page (before ++ p :: after)) w in
  let without :=
    export py_repr local_root client_name now (map Page (before ++ after)) w in
  fst run = Ok tt
  /\ files (snd run) = files (snd without)
  /\ rows_written csv (trace (snd run)) = rows_written csv (trace (snd without)).
Proof.
  intros Hp csv run without. subst csv run without.
  assert (Hnone : (if status_not_200 p then [] else page_items p) = []).
  { unfold status_not_200, page_status, page_items.
    destruct Hp as [Hmd | [(md & Hmd & Hst) | [Hit | Hit]]].
    - rewrite Hmd. reflexivity.
    - rewrite Hmd, Hst. reflexivity.
    - rewrite Hit. destruct (negb _); reflexivity.
    - rewrite Hit. destruct (negb _); reflexivity. }
  assert (Hkept : kept_items (before ++ p :: after) = kept_items (before ++ after)).
  { rewrite !kept_items_app. f_equal. unfold kept_items at 1.
    cbn [flat_map]. rewrite Hnone. reflexivity. }
  split; [| split].
  - rewrite export_result. unfold outcome. rewrite failure_pages. reflexivity.
  - rewrite !export_run. cbn [snd files].
    rewrite !data_rows_kept_items, Hkept. reflexivity.
  - rewrite !export_rows_written, !data_rows_kept_items, Hkept. reflexivity.
Qed.

Lemma page_without_rows_no_metadata :
  files (snd (main sample_repr
                (fun _ _ =>
                   [Page (page_of 200 [item_a]);
                    Page {| ResponseMetadata := None; items := Some [item_b] |}])
                july_2024 empty_world)) =
  files (snd (main sample_repr
                (fun _ _ => [Page (page_of 200 [item_a])])
                july_2024 empty_world)).
Proof.
  apply (page_without_rows sample_repr local_root client_name july_2024
           [page_of 200 [item_a]] []
           {| ResponseMetadata := None; items := Some [item_b] |} empty_world).
  left. reflexivity.
Defined.

(** X17: in every run, complete or aborted, the folder is made, then the
    file is opened once; from there to its closing the run does nothing
    but write rows to that file and request pages; the file is closed
    once, and after that the run at most prints. *)
Theorem file_open_write_close (py_repr : pyval -> string)
    (local_root client_name : string) (now : datetime)
    (upstream : list response) (w : world) :
  let csv := csv_filename local_root client_name now in
  let w' := snd (export py_repr local_root client_name now upstream w) in
  exists line mid tail,
    trace w' =
      trace w
      ++ [EvPrint line; EvMakedirs (folder_path local_root client_name now);
          EvOpen csv]
      ++ mid ++ EvClose csv :: tail
    /\ Forall (fun ev => is_loop_event csv ev = true) mid
    /\ Forall (fun ev => exists l, ev = EvPrint l) tail.
Proof.
  intros csv w'. subst w'. rewrite export_run. cbn [snd trace].
  exists ("DEBUG: folder_path = " +:+ folder_path local_root client_name now).
  exists (EvWriterow csv (map PStr header) :: loop_events csv upstream).
  eexists. split; [| split].
  - unfold run_events. reflexivity.
  - constructor; [apply bool_decide_eq_true_2; reflexivity |].
    apply loop_events_are_loop_events.
  - destruct (failure upstream); repeat constructor. eexists. reflexivity.
Qed.

(** X18: with a client name that does not begin with a separator, runs in
    two different months write two different files, and the later run
    leaves the file of the earlier one as it was. *)
Theorem monthly_files_kept (py_repr : pyval -> string)
    (local_root client_name : string) (now1 now2 : datetime)
    (upstream1 upstream2 : list response) (w : world) :
  startswith_sep client_name = false ->
  1000 <= year now1 <= 9999 -> 1 <= month now1 <= 12 ->
  1000 <= year now2 <= 9999 -> 1 <= month now2 <= 12 ->
  year now1 <> year now2 \/ month now1 <> month now2 ->
  let csv1 := csv_filename local_root client_name now1 in
  let csv2 := csv_filename local_root client_name now2 in
  let w1 := snd (export py_repr local_root client_name now1 upstream1 w) in
  let w2 := snd (export py_repr local_root client_name now2 upstream2 w1) in
  csv1 <> csv2
  /\ files w2 !! csv1 =
       Some (csv_record py_repr (map PStr header)
             +:+ csv_text py_repr (data_rows upstream1))
  /\ files w2 !! csv2 =
       Some (csv_record py_repr (map PStr header)
             +:+ csv_text py_repr (data_rows upstream2)).
Proof.
  intros Hc Hy1 Hm1 Hy2 Hm2 Hdiff csv1 csv2 w1 w2.
  assert (Hform : forall now,
            1000 <= year now <= 9999 -> 1 <= month now <= 12 ->
            csv_filename local_root client_name now =
              (with_sep local_root +:+ with_sep client_name)
              +:+ YYYYMM now +:+ "/" +:+ client_name +:+ "_recommendations.csv").
  { intros now Hy Hm. unfold csv_filename, os_path_join. cbn [fold_left].
    rewrite join_step_relative.
    2:{ destruct client_name as [| c s]; [reflexivity | exact Hc]. }
    rewrite folder_path_relative by assumption.
    rewrite <- !append_assoc, with_sep_YYYYMM, !append_assoc. reflexivity. }
  assert (Hne : csv1 <> csv2).
  { subst csv1 csv2. rewrite !Hform by assumption. intros Heq.
    apply (inj (String.app _)) in Heq.
    apply YYYYMM_inj in Heq; try assumption.
    destruct Heq as [Hy Hm]. destruct Hdiff; contradiction. }
  split; [exact Hne | split].
  - subst w2. rewrite export_other_files by exact Hne.
    subst w1. apply export_file.
  - subst w2. apply export_file.
Qed.

Lemma monthly_files_kept_july_august :
  let august := {| year := 2024; month := 8; day := 1 |} in
  let w1 := snd (main sample_repr (fun _ _ => [Page (page_of 200 [item_a])])
                   july_2024 empty_world) in
  let w2 := snd (main sample_repr (fun _ _ => [Page (page_of 200 [item_b])])
                   august w1) in
  files w2 !! csv_filename local_root client_name july_2024 =
    Some (csv_record sample_repr (map PStr header)
          +:+ csv_text sample_repr [row item_a]).
Proof.
  intros august w1 w2.
  apply (monthly_files_kept sample_repr local_root client_name july_2024
           august [Page (page_of 200 [item_a])] [Page (page_of 200 [item_b])]
           empty_world);
    [reflexivity | simpl; lia | simpl; lia | simpl; lia | simpl; lia |].
  right. simpl. lia.
Defined.
